(** * Context-aware dictation: the accessibility context resolver

    A shallow embedding of [dictation/dictation_context.py] and the
    properties of its specification.

    The Python module reads two attributes of the focused UI element
    (its text value and its selected range), lets a per-application hook
    correct them, and hands a window of text on each side of the cursor to
    the dictation formatter, falling back to the host's keystroke-based
    provider whenever accessibility is disabled, unavailable or failing. *)

From Stdlib Require Import ZArith String Ascii List Bool Lia.
Import ListNotations.

Local Open Scope string_scope.
Local Open Scope Z_scope.

(** ** Python values and exceptions *)

(** The values that flow through the module.  [content] is annotated
    [str] and [selection] is annotated [Span], but both are compared with
    [None] by the code and both come from an untyped attribute read, so
    the fields hold a dynamically typed value.  [PySpan] is talon's
    two-field range object, of which the code only reads [left] and
    [right]; characters of a [PyStr] stand for code points. *)
Inductive pyval : Type :=
| PyNone
| PyStr (s : string)
| PyInt (z : Z)
| PySpan (left right : Z).

(** A raised exception: [type(e).__name__], [str(e)], and whether it is
    an instance of [Exception].  [KeyboardInterrupt], [SystemExit] and
    [GeneratorExit] derive from [BaseException] only, and so may a class
    of the host. *)
Record exn : Type := mkRaised {
  exn_kind : string;
  exn_msg : string;
  exn_is_Exception : bool
}.

(** An instance of a subclass of [Exception]. *)
Definition mkExn (kind msg : string) : exn := mkRaised kind msg true.

(** [KeyboardInterrupt()] *)
Definition KeyboardInterrupt : exn := mkRaised "KeyboardInterrupt" "" false.

(** The result of evaluating an expression that may raise. *)
Inductive outcome (A : Type) : Type :=
| Ret (a : A)
| Raise (e : exn).
Arguments Ret {A} a.
Arguments Raise {A} e.

Definition obind {A B} (o : outcome A) (k : A -> outcome B) : outcome B :=
  match o with
  | Ret a => k a
  | Raise e => Raise e
  end.

Declare Scope outcome_scope.
Delimit Scope outcome_scope with outcome.
Notation "'let?' x ':=' o 'in' k" := (obind o (fun x => k))
  (at level 10, x name, o at level 100, k at level 200) : outcome_scope.

Definition type_name (v : pyval) : string :=
  match v with
  | PyNone => "NoneType"
  | PyStr _ => "str"
  | PyInt _ => "int"
  | PySpan _ _ => "Span"
  end.

Definition AttributeError (v : pyval) (field : string) : exn :=
  mkExn "AttributeError"
        ("'" ++ type_name v ++ "' object has no attribute '" ++ field ++ "'").

Definition TypeError_subscript (v : pyval) : exn :=
  mkExn "TypeError" ("'" ++ type_name v ++ "' object is not subscriptable").

Definition TypeError_len (v : pyval) : exn :=
  mkExn "TypeError" ("object of type '" ++ type_name v ++ "' has no len()").

(** [v.left] and [v.right]. *)
Definition attr_left (v : pyval) : outcome Z :=
  match v with
  | PySpan l _ => Ret l
  | _ => Raise (AttributeError v "left")
  end.

Definition attr_right (v : pyval) : outcome Z :=
  match v with
  | PySpan _ r => Ret r
  | _ => Raise (AttributeError v "right")
  end.

(** How Python turns one bound of a slice into a position of a sequence
    of length [len]: a negative bound counts from the end, and every
    bound is clamped into [0, len]. *)
Definition adjust_index (i len : Z) : Z :=
  if i <? 0 then Z.max (i + len) 0 else Z.min i len.

(** [s[start:stop]] on a string. *)
Definition py_slice (s : string) (start stop : Z) : string :=
  let len := Z.of_nat (String.length s) in
  let a := adjust_index start len in
  let b := adjust_index stop len in
  substring (Z.to_nat a) (Z.to_nat (b - a)) s.

(** [v[start:stop]]. *)
Definition subscript (v : pyval) (start stop : Z) : outcome string :=
  match v with
  | PyStr s => Ret (py_slice s start stop)
  | _ => Raise (TypeError_subscript v)
  end.

(** [len(v)]. *)
Definition py_len (v : pyval) : outcome Z :=
  match v with
  | PyStr s => Ret (Z.of_nat (String.length s))
  | _ => Raise (TypeError_len v)
  end.

(** ** The data holder *)

Definition DEFAULT_CONTEXT_CHARACTERS : Z := 30.

Record AccessibilityContext : Type := mkContext {
  content : pyval;
  selection : pyval
}.

Local Open Scope outcome_scope.

(** [AccessibilityContext.left_context]. *)
Definition left_context (self : AccessibilityContext) (num_chars : Z)
  : outcome string :=
  let? l := attr_left (selection self) in
  let start := Z.max 0 (l - num_chars) in
  let? l' := attr_left (selection self) in
  subscript (content self) start l'.

(** [AccessibilityContext.right_context]. *)
Definition right_context (self : AccessibilityContext) (num_chars : Z)
  : outcome string :=
  let? r := attr_right (selection self) in
  let? n := py_len (content self) in
  let end_ := Z.min (r + num_chars) n in
  let? r' := attr_right (selection self) in
  subscript (content self) r' end_.

Local Close Scope outcome_scope.

(** ** The host: setting, accessibility layer, overrides, fallback *)

(** Everything the module consumes from talon.  The collaborators act on
    an opaque [World] (the state of the desktop and of the host), may
    change it and may raise.  The two override points are optional: when a
    context of the host registers no override, talon dispatches the action
    to the default implementation of this module. *)
Record Host : Type := mkHost {
  World : Type;
  Element : Type;
  (** [setting_accessibility_dictation.get()] *)
  setting_get : World -> bool;
  (** [ui.focused_element()]; [None] when nothing is focused *)
  ui_focused_element : World -> outcome (option Element) * World;
  (** [el.attrs] *)
  element_attrs : Element -> World -> outcome (list string) * World;
  (** [el.get(name)] *)
  element_get : Element -> string -> World -> outcome pyval * World;
  (** an application's override of [dictation_current_element] *)
  override_current_element :
    option (World -> outcome (option Element) * World);
  (** an application's override of
      [accessibility_adjust_context_for_application] *)
  override_adjust_context :
    option (Element -> AccessibilityContext ->
            World -> outcome AccessibilityContext * World);
  (** [actions.next(left, right)]: the dictation host's own
      [dictation_peek], which this module wraps *)
  actions_next :
    bool -> bool -> World -> outcome (option string * option string) * World
}.

(** [Colors] *)
Definition Colors_RESET : string := String "027"%char "[0m".
Definition Colors_RED : string := String "027"%char "[31m".
Definition Colors_YELLOW : string := String "027"%char "[33m".

Definition unavailable_line : string :=
  Colors_YELLOW ++ "Accessibility not available for context-aware dictation"
  ++ Colors_RESET ++ "; falling back to cursor method".

Definition error_line (e : exn) : string :=
  Colors_RED ++ exn_kind e
  ++ " while querying accessibility for context-aware dictation:"
  ++ Colors_RESET ++ " '" ++ exn_msg e ++ "':".

Definition is_none (v : pyval) : bool :=
  match v with PyNone => true | _ => false end.

(** Truth value of a list: [not l] holds of the empty list only. *)
Definition list_truthy {A} (l : list A) : bool :=
  match l with [] => false | _ :: _ => true end.

Section Resolver.

Variable H : Host.

(** What one run does to the outside, in order. *)
Inductive event : Type :=
| EvCurrentElement
| EvFocusedElement
| EvAttrs (el : Element H)
| EvGet (el : Element H) (name : string)
| EvAdjust (el : Element H) (context : AccessibilityContext)
| EvNext (left right : bool)
| EvPrint (line : string)
| EvTraceback (e : exn).

(** A computation: from a world to an outcome, the world it leaves
    and the events it emitted. *)
Definition M (A : Type) : Type :=
  World H -> outcome A * World H * list event.

Definition ret {A} (a : A) : M A := fun w => (Ret a, w, []).

Definition bind {A B} (m : M A) (k : A -> M B) : M B :=
  fun w =>
    match m w with
    | (Ret a, w1, t1) =>
        match k a w1 with
        | (o, w2, t2) => (o, w2, (t1 ++ t2)%list)
        end
    | (Raise e, w1, t1) => (Raise e, w1, t1)
    end.

(** [try: m except Exception as e: handler e].  The clause matches the
    instances of [Exception]; any other exception goes on to the
    caller. *)
Definition try_except {A} (m : M A) (handler : exn -> M A) : M A :=
  fun w =>
    match m w with
    | (Ret a, w1, t1) => (Ret a, w1, t1)
    | (Raise e, w1, t1) =>
        if exn_is_Exception e
        then match handler e w1 with
             | (o, w2, t2) => (o, w2, (t1 ++ t2)%list)
             end
        else (Raise e, w1, t1)
    end.

(** A call of a collaborator, recorded as [ev]. *)
Definition call {A} (ev : event) (f : World H -> outcome A * World H)
  : M A :=
  fun w => match f w with (o, w1) => (o, w1, [ev]) end.

Definition emit (ev : event) : M unit := fun w => (Ret tt, w, [ev]).

Definition pure {A} (o : outcome A) : M A := fun w => (o, w, []).

Notation "x <- m ;; k" := (bind m (fun x => k))
  (at level 61, m at next level, right associativity).
Notation "m ;; k" := (bind m (fun _ => k))
  (at level 61, right associativity).

(** [print(line)] and [traceback.print_exc()] *)
Definition print (line : string) : M unit := emit (EvPrint line).
Definition traceback_print_exc (e : exn) : M unit := emit (EvTraceback e).

(** *** [ModActions] *)

(** [setting_accessibility_dictation.get()] *)
Definition setting_accessibility_dictation_get : M bool :=
  fun w => (Ret (setting_get H w), w, []).

Definition accessibility_dictation_enabled : M bool :=
  setting_accessibility_dictation_get.

Definition dictation_current_element : M (option (Element H)) :=
  call EvFocusedElement (ui_focused_element H).

Definition accessibility_adjust_context_for_application
  (el : Element H) (context : AccessibilityContext)
  : M AccessibilityContext :=
  ret context.

(** [actions.user.dictation_current_element()] *)
Definition actions_user_dictation_current_element
  : M (option (Element H)) :=
  emit EvCurrentElement ;;
  match override_current_element H with
  | Some f => fun w => match f w with (o, w1) => (o, w1, []) end
  | None => dictation_current_element
  end.

(** [actions.user.accessibility_adjust_context_for_application(el, context)] *)
Definition actions_user_accessibility_adjust_context_for_application
  (el : Element H) (context : AccessibilityContext)
  : M AccessibilityContext :=
  emit (EvAdjust el context) ;;
  match override_adjust_context H with
  | Some f => fun w => match f el context w with (o, w1) => (o, w1, []) end
  | None => accessibility_adjust_context_for_application el context
  end.

(** [accessibility_create_dictation_context].  [not el] holds of [None]
    only, an element object being true; [not el.attrs] holds of the empty
    list of attributes. *)
Definition accessibility_create_dictation_context
  (el : option (Element H)) : M (option AccessibilityContext) :=
  enabled <- accessibility_dictation_enabled ;;
  if negb enabled then ret None else
  match el with
  | None => ret None
  | Some e =>
      attrs <- call (EvAttrs e) (element_attrs H e) ;;
      if negb (list_truthy attrs) then ret None else
      sel <-
        call (EvGet e "AXSelectedTextRange")
             (element_get H e "AXSelectedTextRange") ;;
      let sel := if is_none sel then PySpan 0 0 else sel in
      value <- call (EvGet e "AXValue") (element_get H e "AXValue") ;;
      let context := mkContext value sel in
      context <-
        actions_user_accessibility_adjust_context_for_application
          e context ;;
      if is_none (content context) || is_none (selection context)
      then ret None
      else ret (Some context)
  end.

(** *** [Actions] *)

Definition next (left right : bool)
  : M (option string * option string) :=
  call (EvNext left right) (actions_next H left right).

(** The body of the [try] block of [dictation_peek], with the final
    [return before, after] that it falls through to. *)
Definition dictation_peek_try (left right : bool)
  : M (option string * option string) :=
  enabled <- setting_accessibility_dictation_get ;;
  if negb enabled then next left right else
  el <- actions_user_dictation_current_element ;;
  context <- accessibility_create_dictation_context el ;;
  match context with
  | None =>
      print unavailable_line ;;
      next left right
  | Some context =>
      before <-
        (if left
         then b <- pure (left_context context DEFAULT_CONTEXT_CHARACTERS) ;;
              ret (Some b)
         else ret None) ;;
      after <-
        (if right
         then a <- pure (right_context context DEFAULT_CONTEXT_CHARACTERS) ;;
              ret (Some a)
         else ret None) ;;
      ret (before, after)
  end.

Definition dictation_peek_except (left right : bool) (e : exn)
  : M (option string * option string) :=
  print (error_line e) ;;
  traceback_print_exc e ;;
  next left right.

Definition dictation_peek (left right : bool)
  : M (option string * option string) :=
  try_except (dictation_peek_try left right)
             (dictation_peek_except left right).

(** *** Reading a trace *)

Definition is_element_query (ev : event) : bool :=
  match ev with
  | EvCurrentElement | EvFocusedElement | EvAttrs _ | EvGet _ _ => true
  | _ => false
  end.

Definition is_adjust (ev : event) : bool :=
  match ev with EvAdjust _ _ => true | _ => false end.

Definition is_next (ev : event) : bool :=
  match ev with EvNext _ _ => true | _ => false end.

Definition count (p : event -> bool) (t : list event) : nat :=
  List.length (filter p t).

End Resolver.

Arguments event H : clear implicits.
Arguments M H A : clear implicits.
Arguments ret {H A} a w.
Arguments EvCurrentElement {H}.
Arguments EvFocusedElement {H}.
Arguments EvAttrs {H} el.
Arguments EvGet {H} el name.
Arguments EvAdjust {H} el context.
Arguments EvNext {H} left right.
Arguments EvPrint {H} line.
Arguments EvTraceback {H} e.
Arguments is_element_query {H} ev.
Arguments is_adjust {H} ev.
Arguments is_next {H} ev.
Arguments count {H} p t.

(** ** Scripted hosts

    A host whose collaborators answer from a fixed script, on one element
    handle.  Its world counts the calls made to the fallback provider, so
    that a script can let the provider answer differently the second
    time. *)
Record Script : Type := mkScript {
  sc_gate : bool;
  sc_focus : outcome (option nat);
  sc_attrs : outcome (list string);
  sc_range : outcome pyval;
  sc_value : outcome pyval;
  sc_adjust : option (AccessibilityContext -> outcome AccessibilityContext);
  sc_next : nat -> outcome (option string * option string)
}.

Definition script_get (s : Script) (name : string) : outcome pyval :=
  if String.eqb name "AXSelectedTextRange" then sc_range s
  else if String.eqb name "AXValue" then sc_value s
  else Ret PyNone.

Definition script_host (s : Script) : Host :=
  mkHost nat nat
    (fun _ => sc_gate s)
    (fun w => (sc_focus s, w))
    (fun _ w => (sc_attrs s, w))
    (fun _ name w => (script_get s name, w))
    None
    (option_map (fun f (_ : nat) c (w : nat) => (f c, w)) (sc_adjust s))
    (fun _ _ w => (sc_next s w, S w)).

(** The element handle that the scripts below focus. *)
Definition the_field (s : Script) : Element (script_host s) := 1%nat.

(** A text field holding [text] with the cursor at [[l, r)], focused,
    with the setting on and a fallback that answers [("<", ">")]. *)
Definition text_field (text : string) (l r : Z) : Script :=
  mkScript true (Ret (Some 1%nat))
    (Ret ["AXValue"; "AXSelectedTextRange"])
    (Ret (PySpan l r)) (Ret (PyStr text)) None
    (fun _ => Ret (Some "<", Some ">")).

Definition hello_field : Script := text_field "hello world" 5 5.

(** The events of a run that resolves the field, reads its two
    attributes and hands [context] to the correction hook. *)
Definition reads (s : Script) (context : AccessibilityContext)
  : list (event (script_host s)) :=
  [EvCurrentElement; EvFocusedElement; EvAttrs (the_field s);
   EvGet (the_field s) "AXSelectedTextRange"; EvGet (the_field s) "AXValue";
   EvAdjust (the_field s) context].

(** The events of reading the two attributes of the field. *)
Definition attribute_reads (s : Script) : list (event (script_host s)) :=
  [EvAttrs (the_field s); EvGet (the_field s) "AXSelectedTextRange";
   EvGet (the_field s) "AXValue"].

(** The same field with the setting off. *)
Definition disabled_field : Script :=
  mkScript false (Ret (Some 1%nat))
    (Ret ["AXValue"; "AXSelectedTextRange"])
    (Ret (PySpan 5 5)) (Ret (PyStr "hello world")) None
    (fun _ => Ret (Some "<", Some ">")).

(** A slider: its value is a number, not a text. *)
Definition number_field : Script :=
  mkScript true (Ret (Some 1%nat))
    (Ret ["AXValue"; "AXSelectedTextRange"])
    (Ret (PySpan 0 0)) (Ret (PyInt 7)) None
    (fun _ => Ret (Some "<", Some ">")).

(** Nothing is focused. *)
Definition no_focus : Script :=
  mkScript true (Ret None) (Ret []) (Ret PyNone) (Ret PyNone) None
    (fun _ => Ret (Some "<", Some ">")).

(** A field of an application that reports no selected range while the
    cursor is at the start of the text. *)
Definition rangeless_field : Script :=
  mkScript true (Ret (Some 1%nat))
    (Ret ["AXValue"])
    (Ret PyNone) (Ret (PyStr "abc")) None
    (fun _ => Ret (Some "<", Some ">")).

(** A valid field under an override that drops the content. *)
Definition nulling_hook : Script :=
  mkScript true (Ret (Some 1%nat))
    (Ret ["AXValue"; "AXSelectedTextRange"])
    (Ret (PySpan 5 5)) (Ret (PyStr "hello world"))
    (Some (fun c => Ret (mkContext PyNone (selection c))))
    (fun _ => Ret (Some "<", Some ">")).

(** A field that reports no value, under an override that supplies one. *)
Definition rescuing_hook : Script :=
  mkScript true (Ret (Some 1%nat))
    (Ret ["AXValue"; "AXSelectedTextRange"])
    (Ret (PySpan 2 2)) (Ret PyNone)
    (Some (fun c => Ret (mkContext (PyStr "rescued") (selection c))))
    (fun _ => Ret (Some "<", Some ">")).

(** A field whose selected range cannot be read. *)
Definition broken_field : Script :=
  mkScript true (Ret (Some 1%nat))
    (Ret ["AXValue"; "AXSelectedTextRange"])
    (Raise (mkExn "OSError" "AXError -25212")) (Ret (PyStr "hello world"))
    None
    (fun _ => Ret (Some "<", Some ">")).

(** A field whose selected range is being read when the user
    interrupts the host. *)
Definition interrupted_field : Script :=
  mkScript true (Ret (Some 1%nat))
    (Ret ["AXValue"; "AXSelectedTextRange"])
    (Raise KeyboardInterrupt) (Ret (PyStr "hello world"))
    None
    (fun _ => Ret (Some "<", Some ">")).

(** The events of a run up to the read of the selected range. *)
Definition reads_up_to_range (s : Script) : list (event (script_host s)) :=
  [EvCurrentElement; EvFocusedElement; EvAttrs (the_field s);
   EvGet (the_field s) "AXSelectedTextRange"].

(** The setting is off and the fallback provider raises when first
    called. *)
Definition flaky_fallback : Script :=
  mkScript false (Ret (Some 1%nat))
    (Ret ["AXValue"; "AXSelectedTextRange"])
    (Ret (PySpan 5 5)) (Ret (PyStr "hello world")) None
    (fun calls =>
       match calls with
       | O => Raise (mkExn "RuntimeError" "busy")
       | _ => Ret (Some "<", Some ">")
       end).

(** [e] is raised at world [w'], after the events [t], while
    [dictation_peek left right] started in [w] resolves the element,
    builds the context or computes the windows. *)
Inductive raises_in_steps (H : Host) (left right : bool) (w : World H)
  (e : exn) (w' : World H) (t : list (event H)) : Prop :=
| raises_resolving :
    actions_user_dictation_current_element H w = (Raise e, w', t) ->
    raises_in_steps H left right w e w' t
| raises_building (el : option (Element H)) (w1 : World H)
    (t1 t2 : list (event H)) :
    actions_user_dictation_current_element H w = (Ret el, w1, t1) ->
    accessibility_create_dictation_context H el w1 = (Raise e, w', t2) ->
    t = (t1 ++ t2)%list ->
    raises_in_steps H left right w e w' t
| raises_left (el : option (Element H)) (w1 : World H)
    (t1 t2 : list (event H)) (context : AccessibilityContext) :
    actions_user_dictation_current_element H w = (Ret el, w1, t1) ->
    accessibility_create_dictation_context H el w1
    = (Ret (Some context), w', t2) ->
    t = (t1 ++ t2)%list ->
    left = true ->
    left_context context DEFAULT_CONTEXT_CHARACTERS = Raise e ->
    raises_in_steps H left right w e w' t
| raises_right (el : option (Element H)) (w1 : World H)
    (t1 t2 : list (event H)) (context : AccessibilityContext) :
    actions_user_dictation_current_element H w = (Ret el, w1, t1) ->
    accessibility_create_dictation_context H el w1
    = (Ret (Some context), w', t2) ->
    t = (t1 ++ t2)%list ->
    (left = true ->
     exists b, left_context context DEFAULT_CONTEXT_CHARACTERS = Ret b) ->
    right = true ->
    right_context context DEFAULT_CONTEXT_CHARACTERS = Raise e ->
    raises_in_steps H left right w e w' t.

(** [result] is what delegating to the fallback provider from world [w],
    after the events [t], comes to inside the [try] block: the provider's
    answer, unchanged; should the provider raise an instance of
    [Exception] there, the handler reports it and asks the provider once
    more; any other exception of the provider goes on to the caller. *)
Definition delegates_to_fallback (H : Host) (left right : bool)
  (w : World H) (t : list (event H))
  (result : outcome (option string * option string) * World H
            * list (event H)) : Prop :=
  (forall v w1,
      actions_next H left right w = (Ret v, w1) ->
      result = (Ret v, w1, (t ++ [EvNext left right])%list)) /\
  (forall x w1 o w2,
      actions_next H left right w = (Raise x, w1) ->
      exn_is_Exception x = true ->
      actions_next H left right w1 = (o, w2) ->
      result = (o, w2,
                (t ++ [EvNext left right; EvPrint (error_line x);
                       EvTraceback x; EvNext left right])%list)) /\
  (forall x w1,
      actions_next H left right w = (Raise x, w1) ->
      exn_is_Exception x = false ->
      result = (Raise x, w1, (t ++ [EvNext left right])%list)).

(** [needle] occurs in [line]. *)
Definition occurs_in (needle line : string) : Prop :=
  exists pre post, line = pre ++ needle ++ post.

(** Lines written to the diagnostics. *)
Definition is_print {H : Host} (ev : event H) : bool :=
  match ev with
  | EvPrint _ | EvTraceback _ => true
  | _ => false
  end.

(** A host whose setting is switched off while the focused element is
    being resolved: the world counts the resolutions made, and the
    setting is on before the first one only. *)
Definition switching_host : Host :=
  mkHost nat nat
    (fun w => Nat.eqb w 0)
    (fun w => (Ret (Some 1%nat), S w))
    (fun _ w => (Ret ["AXValue"], w))
    (fun _ _ w => (Ret (PyStr "abc"), w))
    None None
    (fun _ _ w => (Ret (Some "<", Some ">"), w)).

(** The setting is off and the fallback provider raises at every call. *)
Definition failing_fallback : Script :=
  mkScript false (Ret (Some 1%nat))
    (Ret ["AXValue"; "AXSelectedTextRange"])
    (Ret (PySpan 5 5)) (Ret (PyStr "hello world")) None
    (fun _ => Raise (mkExn "RuntimeError" "busy")).

(** * Properties *)

(** ** Strings and slices *)

Lemma substring_length (s : string) :
  forall n m : nat,
    String.length (substring n m s) = Nat.min m (String.length s - n).
Proof.
  induction s as [|c s IH]; intros [|n] [|m]; simpl; try reflexivity.
  - rewrite IH. rewrite Nat.sub_0_r. reflexivity.
  - apply IH.
  - apply IH.
Qed.

Lemma substring_split (s : string) :
  forall n m : nat,
    (n + m <= String.length s)%nat ->
    s = substring 0 n s ++ substring n m s
        ++ substring (n + m) (String.length s - (n + m)) s.
Proof.
  induction s as [|c s IH]; intros n m Hle.
  - destruct n, m; reflexivity.
  - destruct n as [|n].
    + destruct m as [|m]; simpl.
      * f_equal. specialize (IH 0%nat 0%nat (Nat.le_0_l _)).
        simpl in IH. rewrite Nat.sub_0_r in IH.
        destruct s; simpl in *; [reflexivity | exact IH].
      * f_equal. simpl in Hle.
        specialize (IH 0%nat m ltac:(lia)). simpl in IH.
        destruct s; simpl in *; exact IH.
    + simpl in *. f_equal. apply IH. lia.
Qed.

Lemma append_length (a b : string) :
  String.length (a ++ b) = (String.length a + String.length b)%nat.
Proof. induction a; simpl; congruence. Qed.

Lemma py_slice_in_range (s : string) (a b : Z) :
  0 <= a <= b -> b <= Z.of_nat (String.length s) ->
  py_slice s a b = substring (Z.to_nat a) (Z.to_nat (b - a)) s.
Proof.
  intros Hab Hb. unfold py_slice, adjust_index.
  destruct (Z.ltb_spec a 0); [lia|].
  destruct (Z.ltb_spec b 0); [lia|].
  rewrite !Z.min_l by lia. reflexivity.
Qed.

(** A slice taken between in-range bounds sits in the text between
    exactly these bounds. *)
Lemma py_slice_sits (s : string) (a b : Z) :
  0 <= a <= b -> b <= Z.of_nat (String.length s) ->
  Z.of_nat (String.length (py_slice s a b)) = b - a /\
  exists pre post,
    s = pre ++ py_slice s a b ++ post /\
    Z.of_nat (String.length pre) = a.
Proof.
  intros Hab Hb. rewrite py_slice_in_range by assumption.
  split.
  - rewrite substring_length. lia.
  - exists (substring 0 (Z.to_nat a) s).
    exists (substring (Z.to_nat a + Z.to_nat (b - a))
              (String.length s - (Z.to_nat a + Z.to_nat (b - a))) s).
    split.
    + apply substring_split. lia.
    + rewrite substring_length. lia.
Qed.

(** ** The two windows *)

Example left_hello :
  left_context (mkContext (PyStr "hello world") (PySpan 5 5))
               DEFAULT_CONTEXT_CHARACTERS = Ret "hello".
Proof. reflexivity. Qed.

Example right_hello :
  right_context (mkContext (PyStr "hello world") (PySpan 5 5))
                DEFAULT_CONTEXT_CHARACTERS = Ret " world".
Proof. reflexivity. Qed.

Example left_abc :
  left_context (mkContext (PyStr "abc") (PySpan 0 0))
               DEFAULT_CONTEXT_CHARACTERS = Ret "".
Proof. reflexivity. Qed.

Example right_abc :
  right_context (mkContext (PyStr "abc") (PySpan 0 0))
                DEFAULT_CONTEXT_CHARACTERS = Ret "abc".
Proof. reflexivity. Qed.

(** A selection before the start of the text is read by Python as
    counted from the end. *)
Example left_negative :
  left_context (mkContext (PyStr "hello") (PySpan (-2) (-2))) 0 = Ret "hel".
Proof. reflexivity. Qed.

Example left_of_number :
  left_context (mkContext (PyInt 7) (PySpan 0 0)) 30
  = Raise (mkExn "TypeError" "'int' object is not subscriptable").
Proof. reflexivity. Qed.

(** C3. For a string [text] and a selection with
    [0 <= l <= r <= len(text)], and [n >= 0], [left_context(n)] returns a
    string of length [min(n, l)] that is the piece of [text] ending
    exactly at offset [l]: [text] is [pre ++ out ++ post] with [pre ++ out]
    of length [l].  (The scenario of "hello world" at [[5, 5)] is
    [left_hello] above.) *)
Theorem left_context_window (text : string) (l r n : Z) :
  0 <= l <= r -> r <= Z.of_nat (String.length text) -> 0 <= n ->
  exists out,
    left_context (mkContext (PyStr text) (PySpan l r)) n = Ret out /\
    Z.of_nat (String.length out) = Z.min n l /\
    exists pre post,
      text = pre ++ out ++ post /\
      Z.of_nat (String.length (pre ++ out)) = l.
Proof.
  intros Hlr Hr Hn.
  exists (py_slice text (Z.max 0 (l - n)) l).
  split; [reflexivity|].
  destruct (py_slice_sits text (Z.max 0 (l - n)) l) as
    [Hlen (pre & post & Heq & Hpre)]; [lia | lia |].
  split; [lia|].
  exists pre, post. split; [exact Heq|].
  rewrite append_length. lia.
Qed.

(** C4. For a string [text] and a selection with
    [0 <= l <= r <= len(text)], and [n >= 0], [right_context(n)] returns
    a string of length [min(n, len(text) - r)] that is the piece of
    [text] starting exactly at offset [r]: [text] is [pre ++ out ++ post]
    with [pre] of length [r].  (The scenario of "abc" at [[0, 0)] is
    [right_abc] above.) *)
Theorem right_context_window (text : string) (l r n : Z) :
  0 <= l <= r -> r <= Z.of_nat (String.length text) -> 0 <= n ->
  exists out,
    right_context (mkContext (PyStr text) (PySpan l r)) n = Ret out /\
    Z.of_nat (String.length out)
    = Z.min n (Z.of_nat (String.length text) - r) /\
    exists pre post,
      text = pre ++ out ++ post /\
      Z.of_nat (String.length pre) = r.
Proof.
  intros Hlr Hr Hn.
  set (stop := Z.min (r + n) (Z.of_nat (String.length text))).
  exists (py_slice text r stop).
  split; [reflexivity|].
  destruct (py_slice_sits text r stop) as
    [Hlen (pre & post & Heq & Hpre)]; [unfold stop; lia | unfold stop; lia |].
  split; [unfold stop in *; lia|].
  exists pre, post. split; assumption.
Qed.

(** C9. On a context whose content is a string and whose selection is a
    span of two integers whatsoever, in or out of the bounds of the text,
    and for every window size, both windows are returned as strings:
    neither method raises. *)
Theorem windows_never_raise (text : string) (l r n : Z) :
  exists before after,
    left_context (mkContext (PyStr text) (PySpan l r)) n = Ret before /\
    right_context (mkContext (PyStr text) (PySpan l r)) n = Ret after.
Proof.
  exists (py_slice text (Z.max 0 (l - n)) l).
  exists (py_slice text r (Z.min (r + n) (Z.of_nat (String.length text)))).
  split; reflexivity.
Qed.

(** ** The resolver *)

Section ResolverFacts.

Variable H : Host.

Implicit Types (w : World H) (e : Element H) (x : exn)
  (t : list (event H)) (left right : bool).

Ltac run :=
  unfold dictation_peek, dictation_peek_try, dictation_peek_except,
    accessibility_create_dictation_context,
    accessibility_dictation_enabled,
    setting_accessibility_dictation_get, try_except, bind, next, call, print,
    traceback_print_exc, emit, pure, ret.

Lemma error_line_names x :
  occurs_in (exn_kind x) (error_line x) /\
  occurs_in (exn_msg x) (error_line x).
Proof.
  unfold occurs_in, error_line. split.
  - exists Colors_RED. eexists. reflexivity.
  - exists (Colors_RED ++ exn_kind x
            ++ " while querying accessibility for context-aware dictation:"
            ++ Colors_RESET ++ " '"), "':".
    induction Colors_RED as [|c s IH]; simpl.
    + induction (exn_kind x) as [|c s IH]; simpl; [reflexivity|].
      f_equal. exact IH.
    + f_equal. exact IH.
Qed.

(** The dispatch of the correction hook records exactly one call. *)
Lemma adjust_once e context w o w' t :
  actions_user_accessibility_adjust_context_for_application H e context w
  = (o, w', t) ->
  t = [EvAdjust e context].
Proof.
  unfold actions_user_accessibility_adjust_context_for_application,
    accessibility_adjust_context_for_application, bind, emit, ret.
  destruct (override_adjust_context H) as [f|].
  - destruct (f e context w) as [o1 w1]. intros Heq.
    injection Heq as _ _ <-. reflexivity.
  - intros Heq. injection Heq as _ _ <-. reflexivity.
Qed.

(** What [accessibility_create_dictation_context] does once the setting
    is on, the element has attributes and both reads return. *)
Lemma create_context_after_reads e w attrs w1 range w2 value w3 o w4 t4 :
  setting_get H w = true ->
  element_attrs H e w = (Ret attrs, w1) -> attrs <> [] ->
  element_get H e "AXSelectedTextRange" w1 = (Ret range, w2) ->
  element_get H e "AXValue" w2 = (Ret value, w3) ->
  actions_user_accessibility_adjust_context_for_application H e
    (mkContext value (if is_none range then PySpan 0 0 else range)) w3
  = (o, w4, t4) ->
  accessibility_create_dictation_context H (Some e) w
  = (match o with
     | Ret c =>
         Ret (if is_none (content c) || is_none (selection c)
              then None else Some c)
     | Raise x => Raise x
     end, w4,
     [EvAttrs e; EvGet e "AXSelectedTextRange"; EvGet e "AXValue"] ++ t4)%list.
Proof.
  intros Hgate Hattrs Hne Hrange Hvalue Hhook. run.
  rewrite Hgate. simpl. rewrite Hattrs.
  destruct attrs as [|a attrs]; [congruence|]. simpl.
  rewrite Hrange, Hvalue, Hhook.
  destruct o as [c|x]; [|reflexivity].
  destruct (is_none (content c) || is_none (selection c));
    simpl; rewrite app_nil_r; reflexivity.
Qed.

(** An exception leaving the [try] block is reported and answered by
    the fallback provider. *)
Lemma peek_catches left right w x w' t o w2 :
  dictation_peek_try H left right w = (Raise x, w', t) ->
  exn_is_Exception x = true ->
  actions_next H left right w' = (o, w2) ->
  dictation_peek H left right w
  = (o, w2,
     t ++ [EvPrint (error_line x); EvTraceback x; EvNext left right])%list.
Proof.
  intros Htry Hclass Hnext. unfold dictation_peek, try_except.
  rewrite Htry, Hclass.
  run. rewrite Hnext. reflexivity.
Qed.

(** Delegation from inside the [try] block. *)
Lemma try_delegates left right w t0 (k : M H (option string * option string)) :
  (forall w0, k w0 = next H left right w0) ->
  delegates_to_fallback H left right w t0
    (match try_except H k (dictation_peek_except H left right) w with
     | (o, w', t) => (o, w', t0 ++ t)%list
     end).
Proof.
  intros Hk. split; [|split].
  - intros v w1 Hnext. run. rewrite Hk. run. rewrite Hnext. reflexivity.
  - intros x w1 o w2 Hnext1 Hclass Hnext2. run. rewrite Hk. run.
    rewrite Hnext1, Hclass, Hnext2. reflexivity.
  - intros x w1 Hnext1 Hclass. run. rewrite Hk. run.
    rewrite Hnext1, Hclass. reflexivity.
Qed.

Ltac run_peek :=
  unfold dictation_peek, dictation_peek_try, dictation_peek_except,
    accessibility_dictation_enabled,
    setting_accessibility_dictation_get, try_except, bind, next, call, print,
    traceback_print_exc, emit, pure, ret.

Ltac trace_eq :=
  repeat (simpl; rewrite ?app_nil_r, <- ?app_assoc); reflexivity.

(** With the setting on and no context built, [dictation_peek] warns and
    delegates. *)
Lemma peek_unavailable left right w el w1 t1 w2 t2 :
  setting_get H w = true ->
  actions_user_dictation_current_element H w = (Ret el, w1, t1) ->
  accessibility_create_dictation_context H el w1 = (Ret None, w2, t2) ->
  delegates_to_fallback H left right w2
    (t1 ++ t2 ++ [EvPrint unavailable_line])
    (dictation_peek H left right w).
Proof.
  intros Hgate Hcur Hcreate. split; [|split].
  - intros v w3 Hnext. run_peek. rewrite Hgate. simpl.
    rewrite Hcur, Hcreate, Hnext. trace_eq.
  - intros x w3 o w4 Hnext1 Hclass Hnext2. run_peek. rewrite Hgate. simpl.
    rewrite Hcur, Hcreate, Hnext1, Hclass, Hnext2. trace_eq.
  - intros x w3 Hnext1 Hclass. run_peek. rewrite Hgate. simpl.
    rewrite Hcur, Hcreate, Hnext1, Hclass. trace_eq.
Qed.

(** An exception of the resolving, building or window steps leaves the
    [try] block. *)
Lemma steps_raise_try left right w x w' t :
  setting_get H w = true ->
  raises_in_steps H left right w x w' t ->
  dictation_peek_try H left right w = (Raise x, w', t).
Proof.
  intros Hgate Hsteps. unfold dictation_peek_try,
    setting_accessibility_dictation_get, bind, pure, ret.
  rewrite Hgate. simpl.
  destruct Hsteps as
    [Hcur
    | el w1 t1 t2 Hcur Hcreate ->
    | el w1 t1 t2 c Hcur Hcreate -> -> Hleft
    | el w1 t1 t2 c Hcur Hcreate -> Hleft -> Hright].
  - rewrite Hcur. reflexivity.
  - rewrite Hcur, Hcreate. reflexivity.
  - rewrite Hcur, Hcreate, Hleft. trace_eq.
  - rewrite Hcur, Hcreate, Hright.
    destruct left.
    + destruct (Hleft eq_refl) as [b ->]. trace_eq.
    + trace_eq.
Qed.


(** C2. With the setting off, whatever the two arguments,
    [dictation_peek] asks nothing of the element or attribute
    collaborators, and its result is exactly the result of the fallback
    provider called with the same arguments. *)
Theorem peek_gate_off left right w :
  setting_get H w = false ->
  delegates_to_fallback H left right w [] (dictation_peek H left right w)
  /\ forall o w' t,
      dictation_peek H left right w = (o, w', t) ->
      count is_element_query t = 0%nat /\
      exists w0, actions_next H left right w0 = (o, w').
Proof.
  intros Hgate. split.
  - split; [|split].
    + intros v w1 Hnext. run_peek. rewrite Hgate. simpl.
      rewrite Hnext. reflexivity.
    + intros x w1 o w2 Hnext1 Hclass Hnext2. run_peek. rewrite Hgate. simpl.
      rewrite Hnext1, Hclass, Hnext2. reflexivity.
    + intros x w1 Hnext1 Hclass. run_peek. rewrite Hgate. simpl.
      rewrite Hnext1, Hclass. reflexivity.
  - intros o w' t. run_peek. rewrite Hgate. simpl.
    destruct (actions_next H left right w) as [[v|x] w1] eqn:Hnext1.
    + intros Heq. injection Heq as <- <- <-. split; [reflexivity|].
      exists w. exact Hnext1.
    + destruct (exn_is_Exception x).
      * destruct (actions_next H left right w1) as [o2 w2] eqn:Hnext2.
        intros Heq. injection Heq as <- <- <-. split; [reflexivity|].
        exists w1. exact Hnext2.
      * intros Heq. injection Heq as <- <- <-. split; [reflexivity|].
        exists w. exact Hnext1.
Qed.

(** C5. With the setting on and an element that has attributes, when the
    context returned by the correction hook has a null content or a null
    selection, [accessibility_create_dictation_context] returns [None]
    and [dictation_peek] warns and delegates to the fallback provider,
    whatever the two raw reads returned. *)
Theorem hook_forces_fallback
  left right w e w1 t1 attrs w2 range w3 value w4 c w5 t5 :
  setting_get H w = true ->
  actions_user_dictation_current_element H w = (Ret (Some e), w1, t1) ->
  setting_get H w1 = true ->
  element_attrs H e w1 = (Ret attrs, w2) -> attrs <> [] ->
  element_get H e "AXSelectedTextRange" w2 = (Ret range, w3) ->
  element_get H e "AXValue" w3 = (Ret value, w4) ->
  actions_user_accessibility_adjust_context_for_application H e
    (mkContext value (if is_none range then PySpan 0 0 else range)) w4
  = (Ret c, w5, t5) ->
  content c = PyNone \/ selection c = PyNone ->
  accessibility_create_dictation_context H (Some e) w1
  = (Ret None, w5,
     [EvAttrs e; EvGet e "AXSelectedTextRange"; EvGet e "AXValue"] ++ t5)%list
  /\ delegates_to_fallback H left right w5
       (t1 ++ ([EvAttrs e; EvGet e "AXSelectedTextRange"; EvGet e "AXValue"]
               ++ t5) ++ [EvPrint unavailable_line])
       (dictation_peek H left right w).
Proof.
  intros Hgate Hcur Hgate1 Hattrs Hne Hrange Hvalue Hhook Hnull.
  assert (Hcreate :
    accessibility_create_dictation_context H (Some e) w1
    = (Ret None, w5,
       [EvAttrs e; EvGet e "AXSelectedTextRange"; EvGet e "AXValue"]
       ++ t5)%list).
  { rewrite (create_context_after_reads e w1 attrs w2 range w3 value w4
               (Ret c) w5 t5) by assumption.
    destruct Hnull as [-> | ->]; [reflexivity|].
    rewrite orb_true_r. reflexivity. }
  split; [exact Hcreate|].
  eapply peek_unavailable; eassumption.
Qed.

(** C6. With the setting on, when the resolved element is [None] or its
    list of attributes is empty, [accessibility_create_dictation_context]
    returns [None], and [dictation_peek] prints the warning that
    accessibility is not available and returns what the fallback provider
    returns. *)
Theorem no_element_falls_back left right w el w1 t1 w2 t2 :
  setting_get H w = true ->
  actions_user_dictation_current_element H w = (Ret el, w1, t1) ->
  setting_get H w1 = true ->
  (el = None /\ w2 = w1 /\ t2 = []) \/
  (exists e, el = Some e /\ element_attrs H e w1 = (Ret [], w2)
             /\ t2 = [EvAttrs e]) ->
  accessibility_create_dictation_context H el w1 = (Ret None, w2, t2)
  /\ delegates_to_fallback H left right w2
       (t1 ++ t2 ++ [EvPrint unavailable_line])
       (dictation_peek H left right w).
Proof.
  intros Hgate Hcur Hgate1 Hel.
  assert (Hcreate :
    accessibility_create_dictation_context H el w1 = (Ret None, w2, t2)).
  { destruct Hel as [(-> & -> & ->) | (e & -> & Hattrs & ->)]; run;
      rewrite Hgate1; simpl; [reflexivity|].
    rewrite Hattrs. reflexivity. }
  split; [exact Hcreate|].
  eapply peek_unavailable; eassumption.
Qed.

(** C7. When the read of the selected range returns [None] and the
    content is present, the context that
    [accessibility_create_dictation_context] constructs and hands to the
    correction hook has the empty span [[0, 0)] as its selection; with
    the default hook the function returns that context. *)
Theorem absent_range_is_empty_span e w attrs w1 w2 value w3 :
  setting_get H w = true ->
  element_attrs H e w = (Ret attrs, w1) -> attrs <> [] ->
  element_get H e "AXSelectedTextRange" w1 = (Ret PyNone, w2) ->
  element_get H e "AXValue" w2 = (Ret value, w3) ->
  value <> PyNone ->
  (forall o w4 t4,
      actions_user_accessibility_adjust_context_for_application H e
        (mkContext value (PySpan 0 0)) w3 = (o, w4, t4) ->
      accessibility_create_dictation_context H (Some e) w
      = (match o with
         | Ret c =>
             Ret (if is_none (content c) || is_none (selection c)
                  then None else Some c)
         | Raise x => Raise x
         end, w4,
         [EvAttrs e; EvGet e "AXSelectedTextRange"; EvGet e "AXValue"]
         ++ t4)%list)
  /\ (override_adjust_context H = None ->
      accessibility_create_dictation_context H (Some e) w
      = (Ret (Some (mkContext value (PySpan 0 0))), w3,
         [EvAttrs e; EvGet e "AXSelectedTextRange"; EvGet e "AXValue";
          EvAdjust e (mkContext value (PySpan 0 0))])).
Proof.
  intros Hgate Hattrs Hne Hrange Hvalue Hpresent. split.
  - intros o w4 t4 Hhook.
    apply (create_context_after_reads e w attrs w1 PyNone w2 value w3);
      assumption.
  - intros Hdefault.
    rewrite (create_context_after_reads e w attrs w1 PyNone w2 value w3
               (Ret (mkContext value (PySpan 0 0))) w3
               [EvAdjust e (mkContext value (PySpan 0 0))]);
      try assumption.
    + simpl. destruct value; try reflexivity. congruence.
    + unfold actions_user_accessibility_adjust_context_for_application,
        accessibility_adjust_context_for_application, bind, emit, ret.
      rewrite Hdefault. reflexivity.
Qed.

(** C8. When a context was built, [dictation_peek] computes
    [left_context()] with the default window only if [left] is true and
    [right_context()] only if [right] is true, and leaves the other side
    [None]: nothing is asked of a side that was not requested.  With
    [left = false] and [right = true] the pair is [(None, Some after)]. *)
Theorem peek_computes_requested_sides
  left right w el w1 t1 context w2 t2 before after :
  setting_get H w = true ->
  actions_user_dictation_current_element H w = (Ret el, w1, t1) ->
  accessibility_create_dictation_context H el w1
  = (Ret (Some context), w2, t2) ->
  (left = true ->
   left_context context DEFAULT_CONTEXT_CHARACTERS = Ret before) ->
  (right = true ->
   right_context context DEFAULT_CONTEXT_CHARACTERS = Ret after) ->
  dictation_peek H left right w
  = (Ret (if left then Some before else None,
          if right then Some after else None), w2, (t1 ++ t2)%list).
Proof.
  intros Hgate Hcur Hcreate Hleft Hright. run_peek.
  rewrite Hgate. simpl. rewrite Hcur, Hcreate.
  destruct left, right;
    try rewrite (Hleft eq_refl); try rewrite (Hright eq_refl); trace_eq.
Qed.

(** C10. With the setting on and an element that has attributes, the
    correction hook is called exactly once, on the context made of the two
    raw reads, also when the content read returned [None]; and when the
    hook returns a context whose content and selection are both not
    [None], [accessibility_create_dictation_context] returns that
    context. *)
Theorem hook_runs_once_and_can_rescue
  e w attrs w1 range w2 value w3 o w4 t4 :
  setting_get H w = true ->
  element_attrs H e w = (Ret attrs, w1) -> attrs <> [] ->
  element_get H e "AXSelectedTextRange" w1 = (Ret range, w2) ->
  element_get H e "AXValue" w2 = (Ret value, w3) ->
  actions_user_accessibility_adjust_context_for_application H e
    (mkContext value (if is_none range then PySpan 0 0 else range)) w3
  = (o, w4, t4) ->
  exists r t,
    accessibility_create_dictation_context H (Some e) w = (r, w4, t)
    /\ t = [EvAttrs e; EvGet e "AXSelectedTextRange"; EvGet e "AXValue";
            EvAdjust e
              (mkContext value
                 (if is_none range then PySpan 0 0 else range))]
    /\ count is_adjust t = 1%nat
    /\ forall c,
        o = Ret c -> content c <> PyNone -> selection c <> PyNone ->
        r = Ret (Some c).
Proof.
  intros Hgate Hattrs Hne Hrange Hvalue Hhook.
  pose proof (adjust_once _ _ _ _ _ _ Hhook) as Ht4.
  rewrite (create_context_after_reads e w attrs w1 range w2 value w3 o w4 t4)
    by assumption.
  subst t4. eexists. eexists.
  split; [reflexivity|]. split; [reflexivity|]. split; [reflexivity|].
  intros c -> Hcontent Hselection.
  destruct (content c); try congruence;
    destruct (selection c); try congruence; reflexivity.
Qed.

End ResolverFacts.

(** ** Runs on scripted hosts *)

Example peek_hello_world :
  dictation_peek (script_host hello_field) true true 0%nat
  = (Ret (Some "hello", Some " world"), 0%nat,
     reads hello_field (mkContext (PyStr "hello world") (PySpan 5 5))).
Proof. reflexivity. Qed.

Example peek_right_only :
  dictation_peek (script_host hello_field) false true 0%nat
  = (Ret (None, Some " world"), 0%nat,
     reads hello_field (mkContext (PyStr "hello world") (PySpan 5 5))).
Proof. reflexivity. Qed.

Example peek_disabled :
  dictation_peek (script_host disabled_field) true true 0%nat
  = (Ret (Some "<", Some ">"), 1%nat, [EvNext true true]).
Proof. reflexivity. Qed.

(** With the setting off, a fallback provider that raises is reported
    and asked again. *)
Example peek_flaky_fallback :
  dictation_peek (script_host flaky_fallback) true true 0%nat
  = (Ret (Some "<", Some ">"), 2%nat,
     [EvNext true true;
      EvPrint (error_line (mkExn "RuntimeError" "busy"));
      EvTraceback (mkExn "RuntimeError" "busy");
      EvNext true true]).
Proof. reflexivity. Qed.

Example peek_number_field :
  dictation_peek (script_host number_field) true true 0%nat
  = (Ret (Some "<", Some ">"), 1%nat,
     reads number_field (mkContext (PyInt 7) (PySpan 0 0))
     ++ [EvPrint (error_line (TypeError_subscript (PyInt 7)));
         EvTraceback (TypeError_subscript (PyInt 7));
         EvNext true true])%list.
Proof. reflexivity. Qed.

Example peek_broken_field :
  dictation_peek (script_host broken_field) true true 0%nat
  = (Ret (Some "<", Some ">"), 1%nat,
     [EvCurrentElement; EvFocusedElement; EvAttrs (the_field broken_field);
      EvGet (the_field broken_field) "AXSelectedTextRange";
      EvPrint (error_line (mkExn "OSError" "AXError -25212"));
      EvTraceback (mkExn "OSError" "AXError -25212");
      EvNext true true]).
Proof. reflexivity. Qed.

Example peek_rescued :
  dictation_peek (script_host rescuing_hook) true true 0%nat
  = (Ret (Some "re", Some "scued"), 0%nat,
     reads rescuing_hook (mkContext PyNone (PySpan 2 2))).
Proof. reflexivity. Qed.

Example peek_no_focus :
  dictation_peek (script_host no_focus) true true 0%nat
  = (Ret (Some "<", Some ">"), 1%nat,
     [EvCurrentElement; EvFocusedElement; EvPrint unavailable_line;
      EvNext true true]).
Proof. reflexivity. Qed.

(** ** The theorems at concrete inputs *)

Lemma left_context_window_witness :
  0 <= 5 <= 5 /\ 5 <= Z.of_nat (String.length "hello world") /\ 0 <= 30 /\
  exists out,
    left_context (mkContext (PyStr "hello world") (PySpan 5 5)) 30 = Ret out /\
    Z.of_nat (String.length out) = Z.min 30 5 /\
    exists pre post,
      "hello world" = pre ++ out ++ post /\
      Z.of_nat (String.length (pre ++ out)) = 5.
Proof.
  assert (h1 : 0 <= 5 <= 5) by lia.
  assert (h2 : 5 <= Z.of_nat (String.length "hello world")) by (simpl; lia).
  assert (h3 : 0 <= 30) by lia.
  exact (conj h1 (conj h2 (conj h3
           (left_context_window "hello world" 5 5 30 h1 h2 h3)))).
Defined.

Lemma right_context_window_witness :
  0 <= 0 <= 0 /\ 0 <= Z.of_nat (String.length "abc") /\ 0 <= 30 /\
  exists out,
    right_context (mkContext (PyStr "abc") (PySpan 0 0)) 30 = Ret out /\
    Z.of_nat (String.length out)
    = Z.min 30 (Z.of_nat (String.length "abc") - 0) /\
    exists pre post,
      "abc" = pre ++ out ++ post /\
      Z.of_nat (String.length pre) = 0.
Proof.
  assert (h1 : 0 <= 0 <= 0) by lia.
  assert (h2 : 0 <= Z.of_nat (String.length "abc")) by (simpl; lia).
  assert (h3 : 0 <= 30) by lia.
  exact (conj h1 (conj h2 (conj h3
           (right_context_window "abc" 0 0 30 h1 h2 h3)))).
Defined.

Lemma peek_gate_off_witness :
  setting_get (script_host disabled_field) 0%nat = false /\
  delegates_to_fallback (script_host disabled_field) true true 0%nat []
    (dictation_peek (script_host disabled_field) true true 0%nat) /\
  forall o w' t,
    dictation_peek (script_host disabled_field) true true 0%nat = (o, w', t) ->
    count is_element_query t = 0%nat /\
    exists w0,
      actions_next (script_host disabled_field) true true w0 = (o, w').
Proof.
  assert (h1 : setting_get (script_host disabled_field) 0%nat = false)
    by reflexivity.
  exact (conj h1
           (peek_gate_off (script_host disabled_field) true true 0%nat h1)).
Defined.


Lemma hook_forces_fallback_witness :
  (content (mkContext PyNone (PySpan 5 5)) = PyNone \/
   selection (mkContext PyNone (PySpan 5 5)) = PyNone) /\
  accessibility_create_dictation_context (script_host nulling_hook)
    (Some (the_field nulling_hook)) 0%nat
  = (Ret None, 0%nat,
     attribute_reads nulling_hook
     ++ [EvAdjust (the_field nulling_hook)
           (mkContext (PyStr "hello world") (PySpan 5 5))])%list /\
  delegates_to_fallback (script_host nulling_hook) true true 0%nat
    ([EvCurrentElement; EvFocusedElement]
     ++ (attribute_reads nulling_hook
         ++ [EvAdjust (the_field nulling_hook)
               (mkContext (PyStr "hello world") (PySpan 5 5))])
     ++ [EvPrint unavailable_line])
    (dictation_peek (script_host nulling_hook) true true 0%nat).
Proof.
  assert (h : content (mkContext PyNone (PySpan 5 5)) = PyNone \/
              selection (mkContext PyNone (PySpan 5 5)) = PyNone)
    by (left; reflexivity).
  refine (conj h
            (hook_forces_fallback (script_host nulling_hook) true true 0%nat
               (the_field nulling_hook) 0%nat
               [EvCurrentElement; EvFocusedElement]
               ["AXValue"; "AXSelectedTextRange"] 0%nat
               (PySpan 5 5) 0%nat (PyStr "hello world") 0%nat
               (mkContext PyNone (PySpan 5 5)) 0%nat
               [EvAdjust (the_field nulling_hook)
                  (mkContext (PyStr "hello world") (PySpan 5 5))]
               eq_refl eq_refl eq_refl eq_refl _ eq_refl eq_refl eq_refl h)).
  discriminate.
Defined.

Lemma no_element_falls_back_witness :
  setting_get (script_host no_focus) 0%nat = true /\
  actions_user_dictation_current_element (script_host no_focus) 0%nat
  = (Ret None, 0%nat, [EvCurrentElement; EvFocusedElement]) /\
  accessibility_create_dictation_context (script_host no_focus) None 0%nat
  = (Ret None, 0%nat, []) /\
  delegates_to_fallback (script_host no_focus) true true 0%nat
    ([EvCurrentElement; EvFocusedElement] ++ []
     ++ [EvPrint unavailable_line])
    (dictation_peek (script_host no_focus) true true 0%nat).
Proof.
  assert (h1 : setting_get (script_host no_focus) 0%nat = true)
    by reflexivity.
  assert (h2 : actions_user_dictation_current_element (script_host no_focus)
                 0%nat
               = (Ret None, 0%nat, [EvCurrentElement; EvFocusedElement]))
    by reflexivity.
  exact (conj h1 (conj h2
           (no_element_falls_back (script_host no_focus) true true 0%nat
              None 0%nat [EvCurrentElement; EvFocusedElement] 0%nat []
              h1 h2 h1
              (or_introl (conj eq_refl (conj eq_refl eq_refl)))))).
Defined.

Lemma absent_range_is_empty_span_witness :
  element_get (script_host rangeless_field) (the_field rangeless_field)
    "AXSelectedTextRange" 0%nat = (Ret PyNone, 0%nat) /\
  element_get (script_host rangeless_field) (the_field rangeless_field)
    "AXValue" 0%nat = (Ret (PyStr "abc"), 0%nat) /\
  accessibility_create_dictation_context (script_host rangeless_field)
    (Some (the_field rangeless_field)) 0%nat
  = (Ret (Some (mkContext (PyStr "abc") (PySpan 0 0))), 0%nat,
     [EvAttrs (the_field rangeless_field);
      EvGet (the_field rangeless_field) "AXSelectedTextRange";
      EvGet (the_field rangeless_field) "AXValue";
      EvAdjust (the_field rangeless_field)
        (mkContext (PyStr "abc") (PySpan 0 0))]).
Proof.
  assert (h1 : element_get (script_host rangeless_field)
                 (the_field rangeless_field) "AXSelectedTextRange" 0%nat
               = (Ret PyNone, 0%nat)) by reflexivity.
  assert (h2 : element_get (script_host rangeless_field)
                 (the_field rangeless_field) "AXValue" 0%nat
               = (Ret (PyStr "abc"), 0%nat)) by reflexivity.
  refine (conj h1 (conj h2
            (proj2 (absent_range_is_empty_span (script_host rangeless_field)
                      (the_field rangeless_field) 0%nat ["AXValue"]
                      0%nat 0%nat (PyStr "abc") 0%nat
                      eq_refl eq_refl _ h1 h2 _) eq_refl)));
    discriminate.
Defined.

Lemma peek_computes_requested_sides_witness :
  setting_get (script_host hello_field) 0%nat = true /\
  right_context (mkContext (PyStr "hello world") (PySpan 5 5))
    DEFAULT_CONTEXT_CHARACTERS = Ret " world" /\
  dictation_peek (script_host hello_field) false true 0%nat
  = (Ret (None, Some " world"), 0%nat,
     [EvCurrentElement; EvFocusedElement]
     ++ (attribute_reads hello_field
         ++ [EvAdjust (the_field hello_field)
               (mkContext (PyStr "hello world") (PySpan 5 5))]))%list.
Proof.
  assert (h1 : setting_get (script_host hello_field) 0%nat = true)
    by reflexivity.
  assert (h2 : right_context (mkContext (PyStr "hello world") (PySpan 5 5))
                 DEFAULT_CONTEXT_CHARACTERS = Ret " world")
    by reflexivity.
  refine (conj h1 (conj h2
            (peek_computes_requested_sides (script_host hello_field)
               false true 0%nat
               (Some (the_field hello_field)) 0%nat
               [EvCurrentElement; EvFocusedElement]
               (mkContext (PyStr "hello world") (PySpan 5 5)) 0%nat _
               "" " world" h1 eq_refl eq_refl _ (fun _ => h2)))).
  discriminate.
Defined.

Lemma hook_runs_once_and_can_rescue_witness :
  element_get (script_host rescuing_hook) (the_field rescuing_hook)
    "AXValue" 0%nat = (Ret PyNone, 0%nat) /\
  actions_user_accessibility_adjust_context_for_application
    (script_host rescuing_hook) (the_field rescuing_hook)
    (mkContext PyNone (PySpan 2 2)) 0%nat
  = (Ret (mkContext (PyStr "rescued") (PySpan 2 2)), 0%nat,
     [EvAdjust (the_field rescuing_hook) (mkContext PyNone (PySpan 2 2))]) /\
  exists r t,
    accessibility_create_dictation_context (script_host rescuing_hook)
      (Some (the_field rescuing_hook)) 0%nat = (r, 0%nat, t)
    /\ t = [EvAttrs (the_field rescuing_hook);
            EvGet (the_field rescuing_hook) "AXSelectedTextRange";
            EvGet (the_field rescuing_hook) "AXValue";
            EvAdjust (the_field rescuing_hook)
              (mkContext PyNone (PySpan 2 2))]
    /\ count is_adjust t = 1%nat
    /\ forall c,
        Ret (mkContext (PyStr "rescued") (PySpan 2 2)) = Ret c ->
        content c <> PyNone -> selection c <> PyNone ->
        r = Ret (Some c).
Proof.
  assert (h1 : element_get (script_host rescuing_hook)
                 (the_field rescuing_hook) "AXValue" 0%nat
               = (Ret PyNone, 0%nat)) by reflexivity.
  assert (h2 : actions_user_accessibility_adjust_context_for_application
                 (script_host rescuing_hook) (the_field rescuing_hook)
                 (mkContext PyNone (PySpan 2 2)) 0%nat
               = (Ret (mkContext (PyStr "rescued") (PySpan 2 2)), 0%nat,
                  [EvAdjust (the_field rescuing_hook)
                     (mkContext PyNone (PySpan 2 2))]))
    by reflexivity.
  refine (conj h1 (conj h2
            (hook_runs_once_and_can_rescue (script_host rescuing_hook)
               (the_field rescuing_hook) 0%nat
               ["AXValue"; "AXSelectedTextRange"] 0%nat (PySpan 2 2) 0%nat
               PyNone 0%nat
               (Ret (mkContext (PyStr "rescued") (PySpan 2 2))) 0%nat
               [EvAdjust (the_field rescuing_hook)
                  (mkContext PyNone (PySpan 2 2))]
               eq_refl eq_refl _ eq_refl h1 h2))).
  discriminate.
Defined.

(** * Further properties of the windows *)

Lemma substring_add (s : string) :
  forall p k1 k2 : nat,
    substring p (k1 + k2) s = substring p k1 s ++ substring (p + k1) k2 s.
Proof.
  induction s as [|c s IH]; intros p k1 k2.
  - destruct p, k1, k2; reflexivity.
  - destruct p as [|p].
    + destruct k1 as [|k1]; simpl.
      * destruct k2; reflexivity.
      * f_equal. apply (IH 0%nat).
    + simpl. apply IH.
Qed.

(** Asking for more characters than the text has left gives what is
    left. *)
Lemma substring_clamp (s : string) :
  forall p k : nat,
    substring p k s = substring p (Nat.min k (String.length s - p)) s.
Proof.
  induction s as [|c s IH]; intros p k.
  - destruct p, k; reflexivity.
  - destruct p as [|p].
    + destruct k as [|k]; simpl; [reflexivity|].
      f_equal. rewrite (IH 0%nat k). rewrite Nat.sub_0_r. reflexivity.
    + simpl. apply IH.
Qed.

Lemma substring_factor (s : string) (p k : nat) :
  exists pre post, s = pre ++ substring p k s ++ post.
Proof.
  destruct (Nat.le_gt_cases p (String.length s)) as [Hp | Hp].
  - rewrite substring_clamp.
    exists (substring 0 p s). eexists.
    apply substring_split. lia.
  - exists s, "".
    assert (Hempty : substring p k s = "").
    { rewrite substring_clamp.
      replace (String.length s - p)%nat with 0%nat by lia.
      rewrite Nat.min_0_r.
      clear Hp. revert p. induction s as [|c s IH]; intros [|p];
        simpl; try reflexivity. apply IH. }
    rewrite Hempty. simpl.
    clear. induction s as [|c s IH]; simpl; congruence.
Qed.

Lemma py_slice_length (s : string) (a b : Z) :
  Z.of_nat (String.length (py_slice s a b))
  = Z.max 0 (adjust_index b (Z.of_nat (String.length s))
             - adjust_index a (Z.of_nat (String.length s))).
Proof.
  unfold py_slice. rewrite substring_length.
  unfold adjust_index.
  destruct (Z.ltb_spec a 0); destruct (Z.ltb_spec b 0); lia.
Qed.

(** X1. Whatever the offsets of the selection and the window size, each
    window is a piece of the text itself: the text is
    [pre ++ window ++ post]. *)
Theorem windows_are_pieces_of_the_text (text : string) (l r n : Z) :
  exists before after,
    left_context (mkContext (PyStr text) (PySpan l r)) n = Ret before /\
    right_context (mkContext (PyStr text) (PySpan l r)) n = Ret after /\
    (exists pre post, text = pre ++ before ++ post) /\
    (exists pre post, text = pre ++ after ++ post).
Proof.
  eexists. eexists.
  split; [reflexivity|]. split; [reflexivity|].
  split; apply substring_factor.
Qed.

(** X2. For a window size [n >= 0], the right window never has more
    than [n] characters, whatever the selection; the left window never
    has more than [n] characters when the left offset is not negative. *)
Theorem windows_hold_at_most_num_chars (text : string) (l r n : Z) :
  0 <= n ->
  exists before after,
    left_context (mkContext (PyStr text) (PySpan l r)) n = Ret before /\
    right_context (mkContext (PyStr text) (PySpan l r)) n = Ret after /\
    Z.of_nat (String.length after) <= n /\
    (0 <= l -> Z.of_nat (String.length before) <= n).
Proof.
  intros Hn. eexists. eexists.
  split; [reflexivity|]. split; [reflexivity|].
  split.
  - rewrite py_slice_length. unfold adjust_index.
    destruct (Z.ltb_spec r 0);
      destruct (Z.ltb_spec
                  (Z.min (r + n) (Z.of_nat (String.length text))) 0); lia.
  - intros Hl. rewrite py_slice_length. unfold adjust_index.
    destruct (Z.ltb_spec l 0);
      destruct (Z.ltb_spec (Z.max 0 (l - n)) 0); lia.
Qed.

(** X3. With a negative left offset the left window does not depend on
    the window size: it is the text without its last [-l] characters
    (the empty string when the text is shorter), which can be longer than
    the window asked for. *)
Theorem left_window_of_negative_offset (text : string) (l r n : Z) :
  l < 0 -> 0 <= n ->
  left_context (mkContext (PyStr text) (PySpan l r)) n
  = Ret (substring 0 (Z.to_nat (Z.of_nat (String.length text) + l)) text)
  /\ exists out,
      left_context (mkContext (PyStr text) (PySpan l r)) n = Ret out /\
      Z.of_nat (String.length out)
      = Z.max 0 (Z.of_nat (String.length text) + l).
Proof.
  intros Hl Hn.
  assert (Heq :
    left_context (mkContext (PyStr text) (PySpan l r)) n
    = Ret (substring 0 (Z.to_nat (Z.of_nat (String.length text) + l)) text)).
  { cbv [left_context obind attr_left subscript content selection
           py_slice adjust_index].
    destruct (Z.ltb_spec (Z.max 0 (l - n)) 0); [lia|].
    destruct (Z.ltb_spec l 0); [|lia].
    set (len := Z.of_nat (String.length text)).
    replace (Z.to_nat (Z.min (Z.max 0 (l - n)) len)) with 0%nat by lia.
    replace (Z.to_nat (Z.max (l + len) 0 - Z.min (Z.max 0 (l - n)) len))
      with (Z.to_nat (len + l)) by lia.
    reflexivity. }
  split; [exact Heq|].
  eexists. split; [exact Heq|].
  rewrite substring_length. lia.
Qed.

Lemma left_window_of_negative_offset_witness :
  -2 < 0 /\ 0 <= 0 /\
  left_context (mkContext (PyStr "hello") (PySpan (-2) (-2))) 0
  = Ret (substring 0 (Z.to_nat (Z.of_nat (String.length "hello") + -2))
           "hello")
  /\ exists out,
      left_context (mkContext (PyStr "hello") (PySpan (-2) (-2))) 0
      = Ret out /\
      Z.of_nat (String.length out)
      = Z.max 0 (Z.of_nat (String.length "hello") + -2).
Proof.
  assert (h1 : -2 < 0) by lia.
  assert (h2 : 0 <= 0) by lia.
  exact (conj h1 (conj h2
           (left_window_of_negative_offset "hello" (-2) (-2) 0 h1 h2))).
Defined.

Lemma windows_hold_at_most_num_chars_witness :
  0 <= 3 /\
  exists before after,
    left_context (mkContext (PyStr "hello world") (PySpan 5 5)) 3
    = Ret before /\
    right_context (mkContext (PyStr "hello world") (PySpan 5 5)) 3
    = Ret after /\
    Z.of_nat (String.length after) <= 3 /\
    (0 <= 5 -> Z.of_nat (String.length before) <= 3).
Proof.
  assert (h1 : 0 <= 3) by lia.
  exact (conj h1 (windows_hold_at_most_num_chars "hello world" 5 5 3 h1)).
Defined.

(** X4. For a selection within the text, windows that reach both ends
    of the text (at least [l] characters to the left, at least
    [len(text) - r] to the right) put the text back together around the
    selected part: [text = before ++ text[l:r] ++ after].  With the
    default window this is every text of at most 30 characters. *)
Theorem windows_rebuild_the_text (text : string) (l r n m : Z) :
  0 <= l <= r -> r <= Z.of_nat (String.length text) ->
  l <= n -> Z.of_nat (String.length text) - r <= m ->
  exists before after,
    left_context (mkContext (PyStr text) (PySpan l r)) n = Ret before /\
    right_context (mkContext (PyStr text) (PySpan l r)) m = Ret after /\
    text = before ++ py_slice text l r ++ after.
Proof.
  intros Hlr Hr Hn Hm. eexists. eexists.
  split; [reflexivity|]. split; [reflexivity|].
  set (len := Z.of_nat (String.length text)) in *.
  rewrite !py_slice_in_range by (fold len; lia).
  replace (Z.max 0 (l - n)) with 0 by lia.
  replace (Z.min (r + m) len) with len by lia.
  replace (Z.to_nat (l - 0)) with (Z.to_nat l) by lia.
  pose proof (substring_split text (Z.to_nat l) (Z.to_nat (r - l))) as Hsplit.
  replace (Z.to_nat l + Z.to_nat (r - l))%nat with (Z.to_nat r) in Hsplit
    by lia.
  replace (String.length text - Z.to_nat r)%nat with (Z.to_nat (len - r))
    in Hsplit by (unfold len; lia).
  apply Hsplit. unfold len in *. lia.
Qed.

Lemma windows_rebuild_the_text_witness :
  0 <= 3 <= 7 /\ 7 <= Z.of_nat (String.length "hello world") /\
  3 <= 30 /\ Z.of_nat (String.length "hello world") - 7 <= 30 /\
  exists before after,
    left_context (mkContext (PyStr "hello world") (PySpan 3 7)) 30
    = Ret before /\
    right_context (mkContext (PyStr "hello world") (PySpan 3 7)) 30
    = Ret after /\
    "hello world" = before ++ py_slice "hello world" 3 7 ++ after.
Proof.
  assert (h1 : 0 <= 3 <= 7) by lia.
  assert (h2 : 7 <= Z.of_nat (String.length "hello world")) by (simpl; lia).
  assert (h3 : 3 <= 30) by lia.
  assert (h4 : Z.of_nat (String.length "hello world") - 7 <= 30)
    by (simpl; lia).
  exact (conj h1 (conj h2 (conj h3 (conj h4
           (windows_rebuild_the_text "hello world" 3 7 30 30
              h1 h2 h3 h4))))).
Defined.

(** X5. For a selection within the text, a larger window only adds
    characters on its far side: the left window for [n] is the end of the
    left window for [m >= n], and the right window for [n] is the start
    of the right window for [m]. *)
Theorem larger_window_extends_smaller (text : string) (l r n m : Z) :
  0 <= l <= r -> r <= Z.of_nat (String.length text) ->
  0 <= n <= m ->
  exists before after more_before more_after,
    left_context (mkContext (PyStr text) (PySpan l r)) n = Ret before /\
    right_context (mkContext (PyStr text) (PySpan l r)) n = Ret after /\
    left_context (mkContext (PyStr text) (PySpan l r)) m
    = Ret (more_before ++ before) /\
    right_context (mkContext (PyStr text) (PySpan l r)) m
    = Ret (after ++ more_after).
Proof.
  intros Hlr Hr Hnm.
  set (len := Z.of_nat (String.length text)) in *.
  exists (py_slice text (Z.max 0 (l - n)) l).
  exists (py_slice text r (Z.min (r + n) len)).
  exists (py_slice text (Z.max 0 (l - m)) (Z.max 0 (l - n))).
  exists (py_slice text (Z.min (r + n) len) (Z.min (r + m) len)).
  split; [reflexivity|]. split; [reflexivity|].
  cbv [left_context right_context obind attr_left attr_right subscript
         py_len content selection].
  fold len. rewrite !py_slice_in_range by (fold len; lia).
  split; f_equal.
  - replace (Z.to_nat (l - Z.max 0 (l - m)))
      with (Z.to_nat (Z.max 0 (l - n) - Z.max 0 (l - m))
            + Z.to_nat (l - Z.max 0 (l - n)))%nat by lia.
    rewrite substring_add.
    replace (Z.to_nat (Z.max 0 (l - m))
             + Z.to_nat (Z.max 0 (l - n) - Z.max 0 (l - m)))%nat
      with (Z.to_nat (Z.max 0 (l - n))) by lia.
    reflexivity.
  - replace (Z.to_nat (Z.min (r + m) len - r))
      with (Z.to_nat (Z.min (r + n) len - r)
            + Z.to_nat (Z.min (r + m) len - Z.min (r + n) len))%nat by lia.
    rewrite substring_add.
    replace (Z.to_nat r + Z.to_nat (Z.min (r + n) len - r))%nat
      with (Z.to_nat (Z.min (r + n) len)) by lia.
    reflexivity.
Qed.

Lemma larger_window_extends_smaller_witness :
  0 <= 5 <= 5 /\ 5 <= Z.of_nat (String.length "hello world") /\
  0 <= 2 <= 4 /\
  exists before after more_before more_after,
    left_context (mkContext (PyStr "hello world") (PySpan 5 5)) 2
    = Ret before /\
    right_context (mkContext (PyStr "hello world") (PySpan 5 5)) 2
    = Ret after /\
    left_context (mkContext (PyStr "hello world") (PySpan 5 5)) 4
    = Ret (more_before ++ before) /\
    right_context (mkContext (PyStr "hello world") (PySpan 5 5)) 4
    = Ret (after ++ more_after).
Proof.
  assert (h1 : 0 <= 5 <= 5) by lia.
  assert (h2 : 5 <= Z.of_nat (String.length "hello world")) by (simpl; lia).
  assert (h3 : 0 <= 2 <= 4) by lia.
  exact (conj h1 (conj h2 (conj h3
           (larger_window_extends_smaller "hello world" 5 5 2 4
              h1 h2 h3)))).
Defined.

(** X6. On a context that has [None] as its content or as its
    selection, the contexts that [accessibility_create_dictation_context]
    refuses to return, both window methods raise; with a [None]
    selection the exception is an [AttributeError]. *)
Theorem windows_raise_on_missing_field (c : AccessibilityContext) (n : Z) :
  is_none (content c) || is_none (selection c) = true ->
  exists x y,
    left_context c n = Raise x /\
    right_context c n = Raise y /\
    (selection c = PyNone ->
     exn_kind x = "AttributeError" /\ exn_kind y = "AttributeError").
Proof.
  destruct c as [cont sel]. simpl. intros Hnone.
  destruct sel as [| s | z | l r].
  - eexists. eexists. split; [reflexivity|]. split; [reflexivity|].
    intros _. split; reflexivity.
  - eexists. eexists. split; [reflexivity|]. split; [reflexivity|].
    discriminate.
  - eexists. eexists. split; [reflexivity|]. split; [reflexivity|].
    discriminate.
  - destruct cont; try discriminate.
    eexists. eexists. split; [reflexivity|]. split; [reflexivity|].
    discriminate.
Qed.

Lemma windows_raise_on_missing_field_witness :
  is_none (content (mkContext PyNone (PySpan 0 0)))
  || is_none (selection (mkContext PyNone (PySpan 0 0))) = true /\
  exists x y,
    left_context (mkContext PyNone (PySpan 0 0)) 30 = Raise x /\
    right_context (mkContext PyNone (PySpan 0 0)) 30 = Raise y /\
    (selection (mkContext PyNone (PySpan 0 0)) = PyNone ->
     exn_kind x = "AttributeError" /\ exn_kind y = "AttributeError").
Proof.
  assert (h1 : is_none (content (mkContext PyNone (PySpan 0 0)))
               || is_none (selection (mkContext PyNone (PySpan 0 0)))
               = true) by reflexivity.
  exact (conj h1
           (windows_raise_on_missing_field
              (mkContext PyNone (PySpan 0 0)) 30 h1)).
Defined.

(** * Further properties of the resolver *)

Section ResolverRuns.

Variable H : Host.

Implicit Types (w : World H) (e : Element H) (x : exn)
  (t : list (event H)) (left right : bool).

Ltac unfold_monad :=
  unfold try_except, bind, next, call, print, traceback_print_exc, emit,
    pure, ret.

Ltac unfold_peek :=
  unfold dictation_peek, dictation_peek_try, dictation_peek_except,
    setting_accessibility_dictation_get; unfold_monad.

Ltac unfold_create :=
  unfold accessibility_create_dictation_context,
    accessibility_dictation_enabled, setting_accessibility_dictation_get;
  unfold_monad.

Ltac traces :=
  repeat (simpl; rewrite ?app_nil_r, <- ?app_assoc); reflexivity.

Lemma count_app (p : event H -> bool) t1 t2 :
  count p (t1 ++ t2) = (count p t1 + count p t2)%nat.
Proof. unfold count. rewrite filter_app, length_app. reflexivity. Qed.

(** Without an override the element is the focused one. *)
Lemma default_current_element w o w1 :
  override_current_element H = None ->
  ui_focused_element H w = (o, w1) ->
  actions_user_dictation_current_element H w
  = (o, w1, [EvCurrentElement; EvFocusedElement]).
Proof.
  intros Hnone Hfocus.
  unfold actions_user_dictation_current_element, dictation_current_element.
  unfold_monad. rewrite Hnone, Hfocus. destruct o; reflexivity.
Qed.

(** Without an override the correction hook is the identity. *)
Lemma default_adjust e c w :
  override_adjust_context H = None ->
  actions_user_accessibility_adjust_context_for_application H e c w
  = (Ret c, w, [EvAdjust e c]).
Proof.
  intros Hnone.
  unfold actions_user_accessibility_adjust_context_for_application,
    accessibility_adjust_context_for_application.
  unfold_monad. rewrite Hnone. reflexivity.
Qed.

(** Resolving the element calls neither the hook nor the fallback and
    prints nothing. *)
Lemma current_element_quiet w o w1 t :
  actions_user_dictation_current_element H w = (o, w1, t) ->
  count is_adjust t = 0%nat /\ count is_next t = 0%nat
  /\ count is_print t = 0%nat.
Proof.
  unfold actions_user_dictation_current_element, dictation_current_element.
  unfold_monad.
  destruct (override_current_element H) as [f|].
  - destruct (f w) as [[el|x] w2]; intros Heq; injection Heq as <- <- <-;
      repeat split.
  - destruct (ui_focused_element H w) as [[el|x] w2]; intros Heq;
      injection Heq as <- <- <-; repeat split.
Qed.

Ltac leaf :=
  let Heq := fresh "Heq" in
  intros Heq; injection Heq as <- <- <-;
  repeat split; unfold count; simpl; lia.

(** Building the context calls the hook at most once, never calls the
    fallback and prints nothing. *)
Lemma create_context_quiet el w o w1 t :
  accessibility_create_dictation_context H el w = (o, w1, t) ->
  (count is_adjust t <= 1)%nat /\ count is_next t = 0%nat
  /\ count is_print t = 0%nat.
Proof.
  unfold_create.
  destruct (setting_get H w); simpl;
    [|leaf].
  destruct el as [e|];
    [|leaf].
  destruct (element_attrs H e w) as [[attrs|x] w2];
    [|leaf].
  destruct attrs as [|a attrs]; simpl;
    [leaf|].
  destruct (element_get H e "AXSelectedTextRange" w2) as [[range|x] w3];
    [|leaf].
  destruct (element_get H e "AXValue" w3) as [[value|x] w4];
    [|leaf].
  destruct (actions_user_accessibility_adjust_context_for_application H e
              (mkContext value (if is_none range then PySpan 0 0 else range))
              w4) as [[[c|x] w5] t5] eqn:Hhook;
    apply adjust_once in Hhook; subst t5.
  - destruct (is_none (content c) || is_none (selection c));
      leaf.
  - leaf.
Qed.


Ltac bounded :=
  let Heq := fresh "Heq" in
  intros Heq; injection Heq as <- <- <-;
  rewrite ?count_app; unfold count in *; simpl in *;
  split; [lia|]; split; [lia|];
  let Hz := fresh "Hz" in
  intros Hz;
  first
    [ exfalso; lia
    | split;
      [ lia
      | let x0 := fresh "x" in
        let Hx := fresh "Hx" in
        intros x0 Hx;
        first [discriminate Hx | injection Hx as <-; assumption] ] ].


(** A run with the default hooks on an element whose two reads
    return, the value not being [None]. *)
Lemma peek_default_hooks
  left right w e w1 attrs w2 range w3 value w4 before after :
  setting_get H w = true ->
  override_current_element H = None ->
  override_adjust_context H = None ->
  ui_focused_element H w = (Ret (Some e), w1) ->
  setting_get H w1 = true ->
  element_attrs H e w1 = (Ret attrs, w2) -> attrs <> [] ->
  element_get H e "AXSelectedTextRange" w2 = (Ret range, w3) ->
  element_get H e "AXValue" w3 = (Ret value, w4) ->
  is_none value = false ->
  (left = true ->
   left_context
     (mkContext value (if is_none range then PySpan 0 0 else range))
     DEFAULT_CONTEXT_CHARACTERS = Ret before) ->
  (right = true ->
   right_context
     (mkContext value (if is_none range then PySpan 0 0 else range))
     DEFAULT_CONTEXT_CHARACTERS = Ret after) ->
  dictation_peek H left right w
  = (Ret (if left then Some before else None,
          if right then Some after else None), w4,
     [EvCurrentElement; EvFocusedElement; EvAttrs e;
      EvGet e "AXSelectedTextRange"; EvGet e "AXValue";
      EvAdjust e
        (mkContext value (if is_none range then PySpan 0 0 else range))]).
Proof.
  intros Hgate Hcur Hadj Hfocus Hgate1 Hattrs Hne Hrange Hvalue Hsome
    Hleft Hright.
  set (c := mkContext value (if is_none range then PySpan 0 0 else range))
    in *.
  assert (Hcreate :
    accessibility_create_dictation_context H (Some e) w1
    = (Ret (Some c), w4,
       [EvAttrs e; EvGet e "AXSelectedTextRange"; EvGet e "AXValue";
        EvAdjust e c])).
  { rewrite (create_context_after_reads H e w1 attrs w2 range w3 value w4
               (Ret c) w4 [EvAdjust e c]); try assumption.
    - unfold c at 1 2. simpl. rewrite Hsome.
      destruct range; reflexivity.
    - apply default_adjust. exact Hadj. }
  unfold_peek. rewrite Hgate. simpl.
  rewrite (default_current_element w _ _ Hcur Hfocus), Hcreate.
  destruct left, right;
    try rewrite (Hleft eq_refl); try rewrite (Hright eq_refl); traces.
Qed.

(** X9. With the setting on and no override registered, a focused
    element that has attributes, a string as its value and a span as its
    selected range gets both windows from accessibility, whatever the
    offsets of the span: the fallback provider is not called and nothing
    is printed. *)
Theorem text_field_never_falls_back
  left right w e w1 attrs w2 l r w3 text w4 :
  setting_get H w = true ->
  override_current_element H = None ->
  override_adjust_context H = None ->
  ui_focused_element H w = (Ret (Some e), w1) ->
  setting_get H w1 = true ->
  element_attrs H e w1 = (Ret attrs, w2) -> attrs <> [] ->
  element_get H e "AXSelectedTextRange" w2 = (Ret (PySpan l r), w3) ->
  element_get H e "AXValue" w3 = (Ret (PyStr text), w4) ->
  dictation_peek H left right w
  = (Ret (if left
          then Some (py_slice text
                       (Z.max 0 (l - DEFAULT_CONTEXT_CHARACTERS)) l)
          else None,
          if right
          then Some (py_slice text r
                       (Z.min (r + DEFAULT_CONTEXT_CHARACTERS)
                          (Z.of_nat (String.length text))))
          else None), w4,
     [EvCurrentElement; EvFocusedElement; EvAttrs e;
      EvGet e "AXSelectedTextRange"; EvGet e "AXValue";
      EvAdjust e (mkContext (PyStr text) (PySpan l r))]).
Proof.
  intros Hgate Hcur Hadj Hfocus Hgate1 Hattrs Hne Hrange Hvalue.
  apply (peek_default_hooks left right w e w1 attrs w2 (PySpan l r) w3
           (PyStr text) w4); try assumption; reflexivity.
Qed.

(** X10. With the setting on and no override registered, when an
    element reports a string value and no selected range, the cursor is
    taken to be at the start of the text: the left window is empty and
    the right window is the first 30 characters of the text, or the whole
    text when it is shorter. *)
Theorem absent_range_reads_from_the_start
  left right w e w1 attrs w2 w3 text w4 :
  setting_get H w = true ->
  override_current_element H = None ->
  override_adjust_context H = None ->
  ui_focused_element H w = (Ret (Some e), w1) ->
  setting_get H w1 = true ->
  element_attrs H e w1 = (Ret attrs, w2) -> attrs <> [] ->
  element_get H e "AXSelectedTextRange" w2 = (Ret PyNone, w3) ->
  element_get H e "AXValue" w3 = (Ret (PyStr text), w4) ->
  dictation_peek H left right w
  = (Ret (if left then Some "" else None,
          if right
          then Some (substring 0
                       (Nat.min 30 (String.length text)) text)
          else None), w4,
     [EvCurrentElement; EvFocusedElement; EvAttrs e;
      EvGet e "AXSelectedTextRange"; EvGet e "AXValue";
      EvAdjust e (mkContext (PyStr text) (PySpan 0 0))]).
Proof.
  intros Hgate Hcur Hadj Hfocus Hgate1 Hattrs Hne Hrange Hvalue.
  apply (peek_default_hooks left right w e w1 attrs w2 PyNone w3
           (PyStr text) w4); try assumption; try reflexivity.
  - intros _. cbv [left_context obind attr_left subscript content selection
                     is_none DEFAULT_CONTEXT_CHARACTERS].
    f_equal. rewrite py_slice_in_range by lia.
    destruct text; reflexivity.
  - intros _. cbv [right_context obind attr_right subscript py_len content
                     selection is_none DEFAULT_CONTEXT_CHARACTERS].
    f_equal. rewrite py_slice_in_range by lia.
    f_equal. lia.
Qed.

(** X11. The setting is read again when the context is built: if it is
    switched off while the element is being resolved, no attribute of
    the element is read, the hook is not called, and [dictation_peek]
    prints the warning and delegates to the fallback provider. *)
Theorem setting_switched_off_during_resolution left right w el w1 t1 :
  setting_get H w = true ->
  actions_user_dictation_current_element H w = (Ret el, w1, t1) ->
  setting_get H w1 = false ->
  accessibility_create_dictation_context H el w1 = (Ret None, w1, [])
  /\ delegates_to_fallback H left right w1
       (t1 ++ [EvPrint unavailable_line])
       (dictation_peek H left right w).
Proof.
  intros Hgate Hcur Hoff.
  assert (Hcreate :
    accessibility_create_dictation_context H el w1 = (Ret None, w1, [])).
  { unfold_create. rewrite Hoff. reflexivity. }
  split; [exact Hcreate|].
  exact (peek_unavailable H left right w el w1 t1 w1 [] Hgate Hcur Hcreate).
Qed.

(** X12. [accessibility_create_dictation_context] does not catch: when
    reading the attribute list, the selected range or the value raises,
    the function raises the same exception at once, without the reads
    that come after and without calling the correction hook. *)
Theorem failed_read_stops_the_build e w x w' :
  setting_get H w = true ->
  (element_attrs H e w = (Raise x, w') ->
   accessibility_create_dictation_context H (Some e) w
   = (Raise x, w', [EvAttrs e]))
  /\ (forall attrs w1,
        element_attrs H e w = (Ret attrs, w1) -> attrs <> [] ->
        element_get H e "AXSelectedTextRange" w1 = (Raise x, w') ->
        accessibility_create_dictation_context H (Some e) w
        = (Raise x, w', [EvAttrs e; EvGet e "AXSelectedTextRange"]))
  /\ (forall attrs w1 range w2,
        element_attrs H e w = (Ret attrs, w1) -> attrs <> [] ->
        element_get H e "AXSelectedTextRange" w1 = (Ret range, w2) ->
        element_get H e "AXValue" w2 = (Raise x, w') ->
        accessibility_create_dictation_context H (Some e) w
        = (Raise x, w',
           [EvAttrs e; EvGet e "AXSelectedTextRange"; EvGet e "AXValue"])).
Proof.
  intros Hgate. repeat split.
  - intros Hattrs. unfold_create. rewrite Hgate. simpl.
    rewrite Hattrs. reflexivity.
  - intros attrs w1 Hattrs Hne Hrange. unfold_create. rewrite Hgate. simpl.
    rewrite Hattrs. destruct attrs as [|a attrs]; [congruence|]. simpl.
    rewrite Hrange. reflexivity.
  - intros attrs w1 range w2 Hattrs Hne Hrange Hvalue.
    unfold_create. rewrite Hgate. simpl.
    rewrite Hattrs. destruct attrs as [|a attrs]; [congruence|]. simpl.
    rewrite Hrange, Hvalue. reflexivity.
Qed.

End ResolverRuns.

(** ** The further properties at concrete inputs *)



Lemma text_field_never_falls_back_witness :
  setting_get (script_host hello_field) 0%nat = true /\
  ui_focused_element (script_host hello_field) 0%nat
  = (Ret (Some (the_field hello_field)), 0%nat) /\
  dictation_peek (script_host hello_field) true true 0%nat
  = (Ret (Some (py_slice "hello world"
                  (Z.max 0 (5 - DEFAULT_CONTEXT_CHARACTERS)) 5),
          Some (py_slice "hello world" 5
                  (Z.min (5 + DEFAULT_CONTEXT_CHARACTERS)
                     (Z.of_nat (String.length "hello world"))))), 0%nat,
     [EvCurrentElement; EvFocusedElement; EvAttrs (the_field hello_field);
      EvGet (the_field hello_field) "AXSelectedTextRange";
      EvGet (the_field hello_field) "AXValue";
      EvAdjust (the_field hello_field)
        (mkContext (PyStr "hello world") (PySpan 5 5))]).
Proof.
  assert (h1 : setting_get (script_host hello_field) 0%nat = true)
    by reflexivity.
  assert (h2 : ui_focused_element (script_host hello_field) 0%nat
               = (Ret (Some (the_field hello_field)), 0%nat))
    by reflexivity.
  refine (conj h1 (conj h2
            (text_field_never_falls_back (script_host hello_field)
               true true 0%nat (the_field hello_field) 0%nat
               ["AXValue"; "AXSelectedTextRange"] 0%nat 5 5 0%nat
               "hello world" 0%nat
               h1 eq_refl eq_refl h2 h1 eq_refl _ eq_refl eq_refl))).
  discriminate.
Defined.

Lemma absent_range_reads_from_the_start_witness :
  setting_get (script_host rangeless_field) 0%nat = true /\
  element_get (script_host rangeless_field) (the_field rangeless_field)
    "AXSelectedTextRange" 0%nat = (Ret PyNone, 0%nat) /\
  dictation_peek (script_host rangeless_field) true true 0%nat
  = (Ret (Some "",
          Some (substring 0 (Nat.min 30 (String.length "abc")) "abc")),
     0%nat,
     [EvCurrentElement; EvFocusedElement;
      EvAttrs (the_field rangeless_field);
      EvGet (the_field rangeless_field) "AXSelectedTextRange";
      EvGet (the_field rangeless_field) "AXValue";
      EvAdjust (the_field rangeless_field)
        (mkContext (PyStr "abc") (PySpan 0 0))]).
Proof.
  assert (h1 : setting_get (script_host rangeless_field) 0%nat = true)
    by reflexivity.
  assert (h2 : element_get (script_host rangeless_field)
                 (the_field rangeless_field) "AXSelectedTextRange" 0%nat
               = (Ret PyNone, 0%nat)) by reflexivity.
  refine (conj h1 (conj h2
            (absent_range_reads_from_the_start (script_host rangeless_field)
               true true 0%nat (the_field rangeless_field) 0%nat
               ["AXValue"] 0%nat 0%nat "abc" 0%nat
               h1 eq_refl eq_refl eq_refl h1 eq_refl _ h2 eq_refl))).
  discriminate.
Defined.

Lemma setting_switched_off_during_resolution_witness :
  setting_get switching_host 0%nat = true /\
  actions_user_dictation_current_element switching_host 0%nat
  = (Ret (Some 1%nat), 1%nat, [EvCurrentElement; EvFocusedElement]) /\
  setting_get switching_host 1%nat = false /\
  accessibility_create_dictation_context switching_host (Some 1%nat) 1%nat
  = (Ret None, 1%nat, []) /\
  delegates_to_fallback switching_host true true 1%nat
    ([EvCurrentElement; EvFocusedElement] ++ [EvPrint unavailable_line])
    (dictation_peek switching_host true true 0%nat).
Proof.
  assert (h1 : setting_get switching_host 0%nat = true) by reflexivity.
  assert (h2 : actions_user_dictation_current_element switching_host 0%nat
               = (Ret (Some 1%nat), 1%nat,
                  [EvCurrentElement; EvFocusedElement])) by reflexivity.
  assert (h3 : setting_get switching_host 1%nat = false) by reflexivity.
  exact (conj h1 (conj h2 (conj h3
           (setting_switched_off_during_resolution switching_host
              true true 0%nat (Some 1%nat) 1%nat
              [EvCurrentElement; EvFocusedElement] h1 h2 h3)))).
Defined.

Lemma failed_read_stops_the_build_witness :
  setting_get (script_host broken_field) 0%nat = true /\
  element_get (script_host broken_field) (the_field broken_field)
    "AXSelectedTextRange" 0%nat
  = (Raise (mkExn "OSError" "AXError -25212"), 0%nat) /\
  accessibility_create_dictation_context (script_host broken_field)
    (Some (the_field broken_field)) 0%nat
  = (Raise (mkExn "OSError" "AXError -25212"), 0%nat,
     [EvAttrs (the_field broken_field);
      EvGet (the_field broken_field) "AXSelectedTextRange"]).
Proof.
  assert (h1 : setting_get (script_host broken_field) 0%nat = true)
    by reflexivity.
  assert (h2 : element_get (script_host broken_field)
                 (the_field broken_field) "AXSelectedTextRange" 0%nat
               = (Raise (mkExn "OSError" "AXError -25212"), 0%nat))
    by reflexivity.
  refine (conj h1 (conj h2
            (proj1 (proj2
               (failed_read_stops_the_build (script_host broken_field)
                  (the_field broken_field) 0%nat
                  (mkExn "OSError" "AXError -25212") 0%nat h1))
               ["AXValue"; "AXSelectedTextRange"] 0%nat eq_refl _ h2))).
  discriminate.
Defined.

(** ** An interrupt is not caught *)

Example peek_interrupted :
  dictation_peek (script_host interrupted_field) true true 0%nat
  = (Raise KeyboardInterrupt, 0%nat, reads_up_to_range interrupted_field).
Proof. reflexivity. Qed.

